(** * pyrce/interface.py: publisher, subscriber and service endpoints

    A shallow embedding of the endpoint classes of the pyrce client
    ([_Publisher], [_Subscriber], [_Service], [Service], [ROSService]) and
    the properties of their methods.  Methods are computations in a state
    and exception monad; a raised exception keeps the state reached when it
    was raised, as in Python. *)

From Stdlib Require Import Ascii String ZArith List.
From stdpp Require Import base gmap strings list pretty.

Open Scope string_scope.
Set Warnings "-register-all".

(** ** Python values *)

(** The values that reach the endpoints: message payloads (JSON compatible
    dictionaries for the plain classes, [StringIO] buffers and [rospy.AnyMsg]
    wrappers for the ROS classes), callbacks, and [threading.Event] objects. *)
Inductive pyvalue :=
| PyNone
| PyInt (z : Z)
| PyStr (s : string)
| PyDict (kv : list (string * pyvalue))
| PyStringIO (buff : pyvalue)
| PyFun (name : string)          (* a function supplied by the user *)
| PyMethod (name : string)       (* a bound method of the endpoint, [self.name] *)
| PyEvent (ev : nat)             (* a [threading.Event], by allocation index *)
| PyAnyMsg (buff : pyvalue).     (* a [rospy.AnyMsg] and its [_buff] *)

(** Truth value, as tested by [if not cb]. *)
Definition truthy (v : pyvalue) : bool :=
  match v with
  | PyNone => false
  | PyInt z => negb (z =? 0)%Z
  | PyStr s => negb (String.eqb s EmptyString)
  | PyDict kv => match kv with [] => false | _ => true end
  | _ => true
  end.

(** [callable(v)]. *)
Definition callable (v : pyvalue) : bool :=
  match v with
  | PyFun _ | PyMethod _ => true
  | _ => false
  end.

(** [isinstance(v, genpy.message.Message)]; [rospy.AnyMsg] is such a message. *)
Definition is_Message (v : pyvalue) : bool :=
  match v with
  | PyAnyMsg _ => true
  | _ => false
  end.

(** ** Exceptions and the monad of methods *)

Inductive exn :=
| TypeError (msg : string)
| AttributeError (attr : string)
| Exception (msg : string).

Inductive result (A : Type) :=
| Return (a : A)
| Raise (e : exn).
Arguments Return {A} a.
Arguments Raise {A} e.

Definition M (S A : Type) : Type := S -> result A * S.

#[global] Instance M_ret {S} : MRet (M S) := fun A a s => (Return a, s).
#[global] Instance M_bind {S} : MBind (M S) := fun A B f m s =>
  match m s with
  | (Return a, s') => f a s'
  | (Raise e, s') => (Raise e, s')
  end.

#[global] Instance M_fmap {S} : FMap (M S) := fun A B f m s =>
  match m s with
  | (Return a, s') => (Return (f a), s')
  | (Raise e, s') => (Raise e, s')
  end.

Definition raise {S A} (e : exn) : M S A := fun s => (Raise e, s).
Definition modify {S} (f : S -> S) : M S unit := fun s => (Return tt, f s).

(** The endpoint [self], the first component of the state of a method. *)
Definition get_self {O W} : M (O * W) O := fun s => (Return s.1, s).

(** Run a computation on the second component of the state (the world),
    leaving the first (the endpoint) alone. *)
Definition on_world {O W A} (m : M W A) : M (O * W) A := fun s =>
  match m s.2 with
  | (r, w') => (r, (s.1, w'))
  end.

(** [for x in xs: body(x)]. *)
Fixpoint for_each {S A} (body : A -> M S unit) (xs : list A) : M S unit :=
  match xs with
  | [] => mret tt
  | x :: rest => body x;; for_each body rest
  end.

(** ** The world outside the endpoints *)

(** One outbound message: tag, type, payload, correlation id. *)
Definition message : Type := string * string * pyvalue * string.

Module Connection.
(** The Connection every endpoint refers to by [self._conn]: the log of
    messages handed to [sendMessage] and the registrations (tag, endpoint). *)
Record t := {
  sent : list message;
  interfaces : list (string * nat)
}.
End Connection.

Record World := {
  conn : Connection.t;
  entropy : nat -> string;              (* what the n-th [uuid4().hex] is *)
  drawn : nat;                          (* calls of [uuid4()] so far *)
  events : list bool;                   (* flags of the [Event] objects *)
  invoked : list (pyvalue * list pyvalue) (* calls of user functions *)
}.

Definition with_conn (c : Connection.t) (w : World) : World :=
  {| conn := c; entropy := entropy w; drawn := drawn w;
     events := events w; invoked := invoked w |}.
Definition with_drawn (n : nat) (w : World) : World :=
  {| conn := conn w; entropy := entropy w; drawn := n;
     events := events w; invoked := invoked w |}.
Definition with_events (e : list bool) (w : World) : World :=
  {| conn := conn w; entropy := entropy w; drawn := drawn w;
     events := e; invoked := invoked w |}.
Definition with_invoked (i : list (pyvalue * list pyvalue)) (w : World) : World :=
  {| conn := conn w; entropy := entropy w; drawn := drawn w;
     events := events w; invoked := i |}.

(** [uuid4().hex]: the next identifier of the random source. *)
Definition uuid4_hex : M World string := fun w =>
  (Return (entropy w (drawn w)), with_drawn (S (drawn w)) w).

(** Modelled from the spec: [Connection.sendMessage(tag, messageType, payload,
    correlationId)], whose code is not part of these sources; it hands one
    message to the channel, recorded here at the end of the log. *)
Definition sendMessage (tag ty : string) (payload : pyvalue) (cid : string) : M World unit :=
  modify (fun w =>
    with_conn {| Connection.sent := Connection.sent (conn w) ++ [(tag, ty, payload, cid)];
                 Connection.interfaces := Connection.interfaces (conn w) |} w).

(** Modelled from the spec: [Connection.registerInterface(tag, endpoint)],
    whose code is not part of these sources; registration is keyed by tag. *)
Definition registerInterface (tag : string) (endpoint : nat) : M World unit :=
  modify (fun w =>
    with_conn {| Connection.sent := Connection.sent (conn w);
                 Connection.interfaces := (tag, endpoint) :: Connection.interfaces (conn w) |} w).

(** Modelled from the spec: [Connection.unregisterInterface(tag, endpoint)],
    whose code is not part of these sources; it removes the endpoint from the
    registry, and removing an endpoint that is not registered is not a fault. *)
Definition unregisterInterface (tag : string) (endpoint : nat) : M World unit :=
  modify (fun w =>
    with_conn {| Connection.sent := Connection.sent (conn w);
                 Connection.interfaces :=
                   filter (fun r => r ≠ (tag, endpoint)) (Connection.interfaces (conn w)) |} w).

(** [Event()]: a new event, its flag clear. *)
Definition Event : M World nat := fun w =>
  (Return (length (events w)), with_events (events w ++ [false]) w).

(** [event.set()], on whatever value [event] is bound to. *)
Definition event_set (event : pyvalue) : M World unit :=
  match event with
  | PyEvent ev => modify (fun w => with_events (<[ev := true]> (events w)) w)
  | _ => raise (AttributeError "set")
  end.

(** Whether [event.wait()] returns: the flag is set. *)
Definition is_set (event : nat) (w : World) : bool :=
  match events w !! event with
  | Some b => b
  | None => false
  end.

(** A call of [f] on the arguments [args], for a function supplied by the
    user: the call is recorded; what the function returns is read by none of
    the endpoints.  Calling a value that is not callable raises. *)
Definition call_user (f : pyvalue) (args : list pyvalue) : M World pyvalue :=
  if callable f
  then modify (fun w => with_invoked (invoked w ++ [(f, args)]) w);; mret PyNone
  else raise (TypeError "object is not callable").

(** ** twisted.internet.defer.Deferred *)

Module Deferred.
(** A Deferred and its chain of callbacks, each with its extra arguments. *)
Record t := { callbacks : list (pyvalue * list pyvalue) }.

(** [Deferred()]. *)
Definition new : t := {| callbacks := [] |}.

(** [deferred.addCallback(f, args...)]. *)
Definition addCallback (f : pyvalue) (args : list pyvalue) (d : t) : t :=
  {| callbacks := callbacks d ++ [(f, args)] |}.

(** [deferred.callback(result)]: each callback gets the result of the one
    before it; an exception raised by a callback stays inside the Deferred
    and skips the callbacks after it. *)
Fixpoint run {S} (apply : pyvalue -> list pyvalue -> M S pyvalue)
    (cbs : list (pyvalue * list pyvalue)) (res : pyvalue) : M S unit :=
  match cbs with
  | [] => mret tt
  | (f, args) :: rest => fun s =>
      match apply f (res :: args) s with
      | (Return r, s') => run apply rest r s'
      | (Raise _, s') => (Return tt, s')
      end
  end.

Definition callback {S} (apply : pyvalue -> list pyvalue -> M S pyvalue)
    (d : t) (res : pyvalue) : M S unit :=
  run apply (callbacks d) res.
End Deferred.

(** ** class _Publisher *)

Module _Publisher.
Record t := { _iTag : string; _msgType : string }.

Definition __init__ (iTag msgType : string) : t :=
  {| _iTag := iTag; _msgType := msgType |}.

Definition publish (self : t) (msg : pyvalue) : M World unit :=
  sendMessage (_iTag self) (_msgType self) msg "nil".
End _Publisher.

(** ** class _Subscriber *)

Module _Subscriber.
Record t := { oid : nat; _iTag : string; _msgType : string; _cb : pyvalue }.

Definition __init__ (oid : nat) (iTag msgType : string) (cb : pyvalue) : t :=
  {| oid := oid; _iTag := iTag; _msgType := msgType; _cb := cb |}.

Definition unsubscribe (self : t) : M World unit :=
  unregisterInterface (_iTag self) (oid self).

Definition callback (self : t) (msgType : string) (msg : pyvalue) (_x : string) : M World unit :=
  if negb (String.eqb msgType (_msgType self))
  then raise (TypeError "Received unexpected message type.")
  else call_user (_cb self) [msg];; mret tt.

Definition __del__ (self : t) : M World unit := unsubscribe self.
End _Subscriber.

(** ** class _Service *)

Module _Service.
Record t := {
  oid : nat;
  _iTag : string;
  _srvType : string;
  _responses : gmap string Deferred.t
}.

Definition __init__ (oid : nat) (iTag srvType : string) : t :=
  {| oid := oid; _iTag := iTag; _srvType := srvType; _responses := ∅ |}.

Definition with_responses (r : gmap string Deferred.t) (self : t) : t :=
  {| oid := oid self; _iTag := _iTag self; _srvType := _srvType self; _responses := r |}.

(** Attribute lookup [self.name] for a name that is read as a string.  The
    instance dictionary holds what [__init__] binds; [Service] and
    [ROSService] bind no further string and no class has attributes of its
    own, so any other name is an [AttributeError]. *)
Definition getattr (self : t) (name : string) : result string :=
  if String.eqb name "_iTag" then Return (_iTag self)
  else if String.eqb name "_srvType" then Return (_srvType self)
  else Raise (AttributeError name).

(** The methods are inherited: [O] is the instance of the subclass, [super]
    its [_Service] part, and [apply] how the subclass calls a callback. *)
Section methods.
Context {O : Type} (super : O -> t) (set_super : t -> O -> O).
Context (apply : pyvalue -> list pyvalue -> M (O * World) pyvalue).

Definition self_attr (name : string) : M (O * World) string := fun s =>
  (getattr (super s.1) name, s).

(** [self._responses[uid] = deferred]. *)
Definition set_response (uid : string) (deferred : Deferred.t) : M (O * World) unit :=
  modify (fun s =>
    (set_super (with_responses (<[uid := deferred]> (_responses (super s.1))) (super s.1)) s.1,
     s.2)).

(** [self._responses.pop(msgID, None)]. *)
Definition pop_response (msgID : string) : M (O * World) (option Deferred.t) := fun s =>
  match _responses (super s.1) !! msgID with
  | Some d =>
      (Return (Some d),
       (set_super (with_responses (delete msgID (_responses (super s.1))) (super s.1)) s.1,
        s.2))
  | None => (Return None, s)
  end.

(** Lines 119 to 122 of [callback]: what follows the type check. *)
Definition deliver (msg : pyvalue) (msgID : string) : M (O * World) unit :=
  deferred ← pop_response msgID;
  match deferred with
  | Some d => Deferred.callback apply d msg
  | None => mret tt
  end.

Definition callback (msgType : string) (msg : pyvalue) (msgID : string) : M (O * World) unit :=
  ty ← self_attr "_msgType";
  if negb (String.eqb msgType ty)
  then raise (TypeError "Received unexpected message type.")
  else deliver msg msgID.

Definition __del__ : M (O * World) unit := fun s =>
  on_world (unregisterInterface (_iTag (super s.1)) (oid (super s.1))) s.
End methods.
End _Service.

(** ** class Service *)

Module Service.
Record t := { super : _Service.t; _cb : pyvalue }.

Definition set_super (b : _Service.t) (self : t) : t :=
  {| super := b; _cb := _cb self |}.

Definition __init__ (oid : nat) (iTag srvType : string) (cb : pyvalue) : t :=
  {| super := _Service.__init__ oid iTag srvType; _cb := cb |}.

(** A callback of a [Service] is a function of the user. *)
Definition apply (f : pyvalue) (args : list pyvalue) : M (t * World) pyvalue :=
  on_world (call_user f args).

Definition callback : string -> pyvalue -> string -> M (t * World) unit :=
  _Service.callback super set_super apply.

Definition __del__ : M (t * World) unit := _Service.__del__ super.

(** Lines 161 and 162 of [call]: the callback it goes on with is the
    argument, or the default of the constructor when the argument is omitted,
    [None] or otherwise false. *)
Definition selected (self : t) (cb : pyvalue) : pyvalue :=
  if negb (truthy cb) then _cb self else cb.

(** [call(msg, cb=None)]; an omitted [cb] is [PyNone]. *)
Definition call (msg : pyvalue) (cb : pyvalue) : M (t * World) unit := fun s =>
  let self := s.1 in
  let cb := selected self cb in
  if negb (callable cb)
  then raise (TypeError "Callback has to be callable.") s
  else
    (uid ← on_world uuid4_hex;
     let deferred := Deferred.addCallback cb [] Deferred.new in
     _Service.set_response super set_super uid deferred;;
     on_world (sendMessage (_Service._iTag (super self)) (_Service._srvType (super self)) msg uid)) s.
End Service.

(** ** class ROSService *)

Module ROSService.
(** [_service] is whether the [rospy.Service] is still advertised.  The
    blocks under [_pendingLock] are single steps here. *)
Record t := {
  super : _Service.t;
  _service : bool;
  _pending : gmap string pyvalue
}.

Definition set_super (b : _Service.t) (self : t) : t :=
  {| super := b; _service := _service self; _pending := _pending self |}.
Definition with_service (b : bool) (self : t) : t :=
  {| super := super self; _service := b; _pending := _pending self |}.
Definition with_pending (p : gmap string pyvalue) (self : t) : t :=
  {| super := super self; _service := _service self; _pending := p |}.

(** [_callback(msg, uid, event)]. *)
Definition _callback (msg : pyvalue) (uid : string) (event : pyvalue) : M (t * World) pyvalue :=
  let rosMsg := PyAnyMsg msg in
  modify (fun s => (with_pending (<[uid := rosMsg]> (_pending s.1)) s.1, s.2));;
  on_world (event_set event);;
  mret PyNone.

(** A callback of a [ROSService] is its own bound method [_callback], added
    with the arguments [uid] and [event]; anything else is called as a
    function of the user. *)
Definition apply (f : pyvalue) (args : list pyvalue) : M (t * World) pyvalue :=
  match f, args with
  | PyMethod name, [msg; PyStr uid; event] =>
      if String.eqb name "_callback" then _callback msg uid event
      else on_world (call_user f args)
  | _, _ => on_world (call_user f args)
  end.

Definition callback : string -> pyvalue -> string -> M (t * World) unit :=
  _Service.callback super set_super apply.

(** [req._buff]. *)
Definition buff_of (req : pyvalue) : M (t * World) pyvalue :=
  match req with
  | PyAnyMsg buff => mret buff
  | _ => raise (AttributeError "_buff")
  end.

(** [_rosCB(req)] up to [event.wait()] (lines 260 to 268): the locals [uid]
    and [event] of the call, which then waits. *)
Definition _rosCB_send (req : pyvalue) : M (t * World) (string * nat) :=
  event ← on_world Event;
  uid ← on_world uuid4_hex;
  let deferred :=
    Deferred.addCallback (PyMethod "_callback") [PyStr uid; PyEvent event] Deferred.new in
  _Service.set_response super set_super uid deferred;;
  buff ← buff_of req;
  self ← get_self;
  on_world (sendMessage (_Service._iTag (super self)) (_Service._srvType (super self))
                        (PyStringIO buff) uid);;
  mret (uid, event).

(** [_rosCB(req)] after [event.wait()] has returned (lines 271 to 277). *)
Definition _rosCB_wake (uid : string) : M (t * World) pyvalue := fun s =>
  let response := default PyNone (_pending s.1 !! uid) in
  let s' := (with_pending (delete uid (_pending s.1)) s.1, s.2) in
  if negb (is_Message response)
  then (Raise (Exception "Interrupted."), s')
  else (Return response, s').

(** A waiting call: [None] while [event.wait()] does not return, otherwise
    the rest of [_rosCB]. *)
Definition _rosCB_resume (frame : string * nat) : M (t * World) (option pyvalue) := fun s =>
  if is_set frame.2 s.2
  then (Some <$> _rosCB_wake frame.1) s
  else (Return None, s).

Definition __del__ : M (t * World) unit :=
  _Service.__del__ super;;
  modify (fun s => (with_service false s.1, s.2));;
  self ← get_self;
  for_each (fun event => on_world (event_set event)) (map_to_list (_pending self)).*2;;
  modify (fun s => (with_pending ∅ s.1, s.2)).
End ROSService.

(** ** class ROSPublisher *)

Module ROSPublisher.
(** [_sub] is whether the [rospy.Subscriber] on [addr], whose callback is
    [_rosCB], is still registered with ROS. *)
Record t := { super : _Publisher.t; addr : string; _sub : bool }.

Definition __init__ (iTag msgType addr : string) : t :=
  {| super := _Publisher.__init__ iTag msgType; addr := addr; _sub := true |}.

(** [_rosCB(msg)]: [self.publish(StringIO(msg._buff))]. *)
Definition _rosCB (msg : pyvalue) : M (t * World) unit := fun s =>
  match msg with
  | PyAnyMsg buff => on_world (_Publisher.publish (super s.1) (PyStringIO buff)) s
  | _ => (Raise (AttributeError "_buff"), s)
  end.

(** [__del__]: [self._sub.unregister()]. *)
Definition __del__ : M (t * World) unit :=
  modify (fun s => ({| super := super s.1; addr := addr s.1; _sub := false |}, s.2)).
End ROSPublisher.

(** ** class ROSSubscriber *)

(** [s.split(sep)] for a separator [sep] of one character: the pieces of [s]
    between the occurrences of [sep], empty pieces included. *)
Fixpoint split (sep : ascii) (s : string) : list string :=
  match s with
  | EmptyString => [EmptyString]
  | String c rest =>
      if Ascii.eqb c sep then EmptyString :: split sep rest
      else match split sep rest with
           | piece :: pieces => String c piece :: pieces
           | [] => [String c EmptyString]
           end
  end.

Module ROSSubscriber.
(** [_pub] is the [rospy.Publisher] on [addr]: the messages handed to its
    [publish], and whether it is still registered with ROS. *)
Record t := {
  super : _Subscriber.t;
  addr : string;
  _pub : list pyvalue;
  _pub_registered : bool
}.

Definition with_pub (p : list pyvalue) (self : t) : t :=
  {| super := super self; addr := addr self; _pub := p;
     _pub_registered := _pub_registered self |}.

(** What the check of the message type in [__init__] (lines 205 to 209)
    yields: the arguments for [loadMsg], or the [ValueError]. *)
Inductive type_args :=
| Args (args : list string)
| ValueError (msg : string).

Definition check_type (msgType : string) : type_args :=
  let args := split "/" msgType in
  if negb (Nat.eqb (length args) 2)
  then ValueError
         "Message type is not valid. Has to be of the form pkg/msg, i.e. std_msgs/Int8."
  else Args args.

(** [_callback(msg)]: the message goes to the ROS Publisher as the buffer
    of an [AnyMsg]. *)
Definition _callback (msg : pyvalue) : M (t * World) pyvalue :=
  let rosMsg := PyAnyMsg msg in
  modify (fun s => (with_pub (_pub s.1 ++ [rosMsg]) s.1, s.2));;
  mret PyNone.

(** [self._cb] of a [ROSSubscriber] is its own bound method [_callback]
    (line 203); anything else is called as a function of the user. *)
Definition apply (f : pyvalue) (args : list pyvalue) : M (t * World) pyvalue :=
  match f, args with
  | PyMethod name, [msg] =>
      if String.eqb name "_callback" then _callback msg
      else on_world (call_user f args)
  | _, _ => on_world (call_user f args)
  end.

(** [callback], inherited from [_Subscriber] (lines 87 to 93). *)
Definition callback (msgType : string) (msg : pyvalue) (_x : string) : M (t * World) unit :=
  fun s =>
  if negb (String.eqb msgType (_Subscriber._msgType (super s.1)))
  then raise (TypeError "Received unexpected message type.") s
  else (apply (_Subscriber._cb (super s.1)) [msg];; mret tt) s.

(** [__del__]: [self.unsubscribe()], then [self._pub.unregister()]. *)
Definition __del__ : M (t * World) unit :=
  (fun s => on_world (_Subscriber.unsubscribe (super s.1)) s);;
  modify (fun s => ({| super := super s.1; addr := addr s.1; _pub := _pub s.1;
                       _pub_registered := false |}, s.2)).
End ROSSubscriber.

(** ** ROSService.__init__ *)

(** A positional argument of a call. *)
Inductive argument :=
| ArgConn
| ArgStr (s : string)
| ArgValue (v : pyvalue).




(** ** Scenarios *)

(** A random source whose identifiers are [u1], [u2], ... *)
Definition hex (n : nat) : string := "u" +:+ pretty (S n).

(** A world in which nothing has happened yet. *)
Definition world0 : World :=
  {| conn := {| Connection.sent := []; Connection.interfaces := [] |};
     entropy := hex; drawn := 0; events := []; invoked := [] |}.

Definition request : pyvalue :=
  PyDict [("op", PyStr "add"); ("a", PyInt 2); ("b", PyInt 3)].
Definition reply : pyvalue := PyDict [("sum", PyInt 5)].

(** [Service(conn, "srv1", "pkg/Add", onResult)]. *)
Definition srv1 : Service.t := Service.__init__ 0 "srv1" "pkg/Add" (PyFun "onResult").

(** [srv1] after [call(request)]. *)
Definition srv1_called : Service.t * World :=
  (Service.call request PyNone (srv1, world0)).2.

(** A sample [ROSService] record, with the attributes that the last lines
    of the constructor bind; the constructor itself stops before them (see
    [ROSService___init__]), so this is a state of the methods, not one a
    run of the constructor produces. *)
Definition ros1 : ROSService.t :=
  {| ROSService.super := _Service.__init__ 1 "srv2" "pkg/Add";
     ROSService._service := true;
     ROSService._pending := ∅ |}.

(** [ros1] with one request of the ROS side waiting for its reply. *)
Definition ros1_waiting : ROSService.t * World :=
  (ROSService._rosCB_send (PyAnyMsg (PyStr "req-a")) (ros1, world0)).2.

(** [ros1] with two requests of the ROS side waiting for their replies. *)
Definition ros1_waiting2 : ROSService.t * World :=
  (ROSService._rosCB_send (PyAnyMsg (PyStr "req-b"))
     (ROSService._rosCB_send (PyAnyMsg (PyStr "req-a")) (ros1, world0)).2).2.

(** [ros1] with the reply for [u1] stored by [_callback] and not yet picked
    up by the call it is for. *)
Definition ros1_replied : ROSService.t * World :=
  (_Service.deliver ROSService.super ROSService.set_super ROSService.apply
     (PyStr "resp") "u1" ros1_waiting).2.

(** [Subscriber(conn, "topic1", "Foo", on_msg)], registered with the Connection. *)
Definition sub1 : _Subscriber.t := _Subscriber.__init__ 2 "topic1" "Foo" (PyFun "on_msg").
Definition world_sub1 : World := (registerInterface "topic1" 2 world0).2.

(** The state [call] is expected to leave when it goes through: the
    Deferred of [cb] stored under the next identifier, the request sent with
    that identifier. *)
Definition called (self : Service.t) (w : World) (msg cb : pyvalue) : Service.t * World :=
  let uid := entropy w (drawn w) in
  (Service.set_super
     (_Service.with_responses
        (<[uid := {| Deferred.callbacks := [(cb, [])] |}]>
           (_Service._responses (Service.super self)))
        (Service.super self))
     self,
   with_conn
     {| Connection.sent :=
          Connection.sent (conn w)
            ++ [(_Service._iTag (Service.super self), _Service._srvType (Service.super self),
                 msg, uid)];
        Connection.interfaces := Connection.interfaces (conn w) |}
     (with_drawn (S (drawn w)) w)).

(** ** Sequences of operations *)

(** What can happen to a [Service]: the user calls it, the Connection
    delivers a message to it, it is finalized. *)
Inductive service_op :=
| OpCall (msg cb : pyvalue)
| OpDeliver (msgType : string) (msg : pyvalue) (msgID : string)
| OpDel.

Definition service_step (o : service_op) : M (Service.t * World) unit :=
  match o with
  | OpCall msg cb => Service.call msg cb
  | OpDeliver msgType msg msgID => Service.callback msgType msg msgID
  | OpDel => Service.__del__
  end.

(** The state after a sequence of operations; one that raises leaves the
    state it raised in, and the next one goes on from there. *)
Definition service_run (ops : list service_op) (s : Service.t * World) : Service.t * World :=
  fold_left (fun s o => (service_step o s).2) ops s.

(** Every pending id of the service is the correlation id of a message that
    was sent with the tag and the type of the service. *)
Definition pending_were_sent (s : Service.t * World) : Prop :=
  forall k, is_Some (_Service._responses (Service.super s.1) !! k) ->
    exists msg, (_Service._iTag (Service.super s.1), _Service._srvType (Service.super s.1),
                 msg, k) ∈ Connection.sent (conn s.2).

(** What can happen to a [ROSService]: a request of the ROS side enters
    [_rosCB] and waits, the Connection delivers a message, the Deferred stored
    under an id fires with a reply, a waiting call wakes up, the service is
    finalized. *)
Inductive bridge_op :=
| BrRequest (req : pyvalue)
| BrDeliver (msgType : string) (msg : pyvalue) (msgID : string)
| BrFire (msg : pyvalue) (msgID : string)
| BrWake (uid : string)
| BrDel.

Definition bridge_step (o : bridge_op) (s : ROSService.t * World) : ROSService.t * World :=
  match o with
  | BrRequest req => (ROSService._rosCB_send req s).2
  | BrDeliver msgType msg msgID => (ROSService.callback msgType msg msgID s).2
  | BrFire msg msgID =>
      (_Service.deliver ROSService.super ROSService.set_super ROSService.apply msg msgID s).2
  | BrWake uid => (ROSService._rosCB_wake uid s).2
  | BrDel => (ROSService.__del__ s).2
  end.

Definition bridge_run (ops : list bridge_op) (s : ROSService.t * World) : ROSService.t * World :=
  fold_left (fun s o => bridge_step o s) ops s.

(** Every result in [_pending] is a message, which is what [_callback]
    stores there. *)
Definition slots_hold_messages (self : ROSService.t) : Prop :=
  forall k v, ROSService._pending self !! k = Some v -> is_Message v = true.

(** How often the character [c] occurs in [s]. *)
Fixpoint occurrences (c : ascii) (s : string) : nat :=
  match s with
  | EmptyString => 0
  | String d rest => (if Ascii.eqb d c then 1 else 0) + occurrences c rest
  end.

(** [ROSPublisher(conn, "topic2", "std_msgs/String", "/chatter")]. *)
Definition rospub1 : ROSPublisher.t :=
  ROSPublisher.__init__ "topic2" "std_msgs/String" "/chatter".

(** A [ROSSubscriber] instance as its constructor means to leave it. *)
Definition rossub1 : ROSSubscriber.t :=
  {| ROSSubscriber.super :=
       _Subscriber.__init__ 3 "topic3" "std_msgs/String" (PyMethod "_callback");
     ROSSubscriber.addr := "/echo";
     ROSSubscriber._pub := [];
     ROSSubscriber._pub_registered := true |}.

(** * Properties *)

(** ** The monad *)

Lemma bind_Return {S A B} (m : M S A) (f : A -> M S B) s a s' :
  m s = (Return a, s') -> (m ≫= f) s = f a s'.
Proof. intros H. unfold mbind, M_bind. by rewrite H. Qed.

(** ** _Publisher *)

(** C9: [publish(msg)] returns at once with no result after exactly one
    [sendMessage], of the endpoint's tag and type, the message, and ['nil']
    as correlation id; nothing else in the world changes, and the endpoint
    is only read. *)
Theorem C9_publish_sends_once (self : _Publisher.t) (msg : pyvalue) (w : World) :
  exists w',
    _Publisher.publish self msg w = (Return tt, w')
    /\ Connection.sent (conn w') =
         (Connection.sent (conn w)
            ++ [(_Publisher._iTag self, _Publisher._msgType self, msg, "nil")])%list
    /\ Connection.interfaces (conn w') = Connection.interfaces (conn w)
    /\ drawn w' = drawn w /\ events w' = events w /\ invoked w' = invoked w
    /\ entropy w' = entropy w.
Proof. eexists. split; [reflexivity |]. by repeat split. Qed.

(** ** _Subscriber *)

Lemma callback_mismatch (self : _Subscriber.t) msgType msg x w :
  msgType ≠ _Subscriber._msgType self ->
  _Subscriber.callback self msgType msg x w
  = (Raise (TypeError "Received unexpected message type."), w).
Proof.
  intros Hne. unfold _Subscriber.callback.
  by apply String.eqb_neq in Hne as ->.
Qed.

Lemma callback_match (self : _Subscriber.t) msg x w :
  callable (_Subscriber._cb self) = true ->
  _Subscriber.callback self (_Subscriber._msgType self) msg x w
  = (Return tt, with_invoked (invoked w ++ [(_Subscriber._cb self, [msg])]) w).
Proof.
  intros Hc. unfold _Subscriber.callback, call_user.
  by rewrite String.eqb_refl, Hc.
Qed.

(** C7: a message whose declared type differs from the subscriber's raises
    the type error and the user callback is not invoked (the record of
    invocations is as before); a message of the subscriber's type invokes the
    user callback once, with the payload. *)
Theorem C7_subscriber_callback (self : _Subscriber.t) (msgType : string)
    (msg : pyvalue) (x : string) (w : World) :
  (msgType ≠ _Subscriber._msgType self ->
     exists w',
       _Subscriber.callback self msgType msg x w
       = (Raise (TypeError "Received unexpected message type."), w')
       /\ invoked w' = invoked w)
  /\ (msgType = _Subscriber._msgType self ->
      callable (_Subscriber._cb self) = true ->
      exists w',
        _Subscriber.callback self msgType msg x w = (Return tt, w')
        /\ invoked w' = (invoked w ++ [(_Subscriber._cb self, [msg])])%list).
Proof.
  split.
  - intros Hne. exists w. by rewrite callback_mismatch.
  - intros -> Hc. eexists. by rewrite callback_match.
Qed.

Lemma C7_subscriber_callback_witness :
  (exists w',
     _Subscriber.callback sub1 "Bar" reply "nil" world0
     = (Raise (TypeError "Received unexpected message type."), w')
     /\ invoked w' = [])
  /\ (exists w',
      _Subscriber.callback sub1 "Foo" reply "nil" world0 = (Return tt, w')
      /\ invoked w' = [(PyFun "on_msg", [reply])]).
Proof.
  pose proof (C7_subscriber_callback sub1 "Bar" reply "nil" world0) as [Hbar _].
  pose proof (C7_subscriber_callback sub1 "Foo" reply "nil" world0) as [_ Hfoo].
  split; [apply Hbar; discriminate | apply Hfoo; reflexivity].
Defined.

Lemma filter_registered_idemp (r : string * nat) (l : list (string * nat)) :
  filter (fun x => x ≠ r) (filter (fun x => x ≠ r) l) = filter (fun x => x ≠ r) l.
Proof.
  induction l as [| a l IH]; [done |].
  rewrite filter_cons. case_decide as Ha; [| done].
  rewrite filter_cons. case_decide; [| done]. by rewrite IH.
Qed.

Lemma filter_unregistered (r : string * nat) (l : list (string * nat)) :
  r ∉ l -> filter (fun x => x ≠ r) l = l.
Proof.
  induction l as [| a l IH]; [done |].
  intros [Hne Hnin]%not_elem_of_cons.
  rewrite filter_cons. case_decide; [| done]. by rewrite IH.
Qed.

(** C8: [unsubscribe()] returns normally, a second [unsubscribe()] returns
    normally too and changes nothing more, and [unsubscribe()] on an endpoint
    that the Connection does not have registered returns normally and changes
    nothing. *)
Theorem C8_unsubscribe_idempotent (self : _Subscriber.t) (w : World) :
  exists w1,
    _Subscriber.unsubscribe self w = (Return tt, w1)
    /\ _Subscriber.unsubscribe self w1 = (Return tt, w1)
    /\ ((_Subscriber._iTag self, _Subscriber.oid self) ∉ Connection.interfaces (conn w) ->
        w1 = w).
Proof.
  eexists. split; [reflexivity |]. split.
  - unfold _Subscriber.unsubscribe, unregisterInterface, modify. cbn.
    by rewrite filter_registered_idemp.
  - intros Hnin. unfold with_conn. cbn.
    rewrite (filter_unregistered _ _ Hnin). by destruct w as [[? ?] ? ? ? ?].
Qed.

Lemma C8_unsubscribe_idempotent_witness :
  exists w1,
    _Subscriber.unsubscribe sub1 world_sub1 = (Return tt, w1)
    /\ _Subscriber.unsubscribe sub1 w1 = (Return tt, w1)
    /\ Connection.interfaces (conn w1) = []
    /\ _Subscriber.unsubscribe sub1 world0 = (Return tt, world0).
Proof.
  destruct (C8_unsubscribe_idempotent sub1 world_sub1) as (w1 & H1 & H2 & _).
  destruct (C8_unsubscribe_idempotent sub1 world0) as (w0 & H0 & _ & Hun).
  exists w1. split; [exact H1 |]. split; [exact H2 |]. split.
  - injection H1 as <-. reflexivity.
  - rewrite H0. f_equal. apply Hun. cbn. apply not_elem_of_nil.
Defined.

(** ** _Service and Service *)

Section service_methods.
Context {O : Type} (super : O -> _Service.t) (set_super : _Service.t -> O -> O).
Context (apply : pyvalue -> list pyvalue -> M (O * World) pyvalue).

(** [callback] reads [self._msgType], which no instance has: every delivery
    raises before the pending table is looked at. *)
Lemma callback_AttributeError msgType msg msgID (s : O * World) :
  _Service.callback super set_super apply msgType msg msgID s
  = (Raise (AttributeError "_msgType"), s).
Proof. reflexivity. Qed.

(** Past the type check, a reply whose id is not pending does nothing. *)
Lemma deliver_absent msg msgID (s : O * World) :
  _Service._responses (super s.1) !! msgID = None ->
  _Service.deliver super set_super apply msg msgID s = (Return tt, s).
Proof.
  intros Hnone. unfold _Service.deliver.
  rewrite (bind_Return _ _ s None s); [reflexivity |].
  unfold _Service.pop_response. by rewrite Hnone.
Qed.

(** Past the type check, a reply whose id is pending removes the entry and
    fires its Deferred. *)
Lemma deliver_present msg msgID d (s : O * World) :
  _Service._responses (super s.1) !! msgID = Some d ->
  _Service.deliver super set_super apply msg msgID s
  = Deferred.callback apply d msg
      (set_super (_Service.with_responses
                    (delete msgID (_Service._responses (super s.1))) (super s.1)) s.1,
       s.2).
Proof.
  intros Hsome. unfold _Service.deliver, _Service.pop_response.
  unfold mbind, M_bind. by rewrite Hsome.
Qed.
End service_methods.

Lemma call_not_callable (self : Service.t) msg cb w :
  callable (Service.selected self cb) = false ->
  Service.call msg cb (self, w)
  = (Raise (TypeError "Callback has to be callable."), (self, w)).
Proof. intros Hc. unfold Service.call, Service.selected in *. cbn. by rewrite Hc. Qed.

Lemma call_callable (self : Service.t) msg cb w :
  callable (Service.selected self cb) = true ->
  Service.call msg cb (self, w) = (Return tt, called self w msg (Service.selected self cb)).
Proof. intros Hc. unfold Service.call, Service.selected in *. cbn. by rewrite Hc. Qed.

(** The id [call] stores is fresh when the random source never repeats
    itself and every pending id was drawn from it earlier. *)
Lemma call_id_fresh (self : Service.t) (w : World) :
  (forall i j, entropy w i = entropy w j -> i = j) ->
  (forall k, is_Some (_Service._responses (Service.super self) !! k) ->
             exists i, i < drawn w /\ entropy w i = k) ->
  _Service._responses (Service.super self) !! entropy w (drawn w) = None.
Proof.
  intros Hinj Hdrawn.
  destruct (_ !! entropy w (drawn w)) as [d |] eqn:Hd; [| done].
  destruct (Hdrawn _ (mk_is_Some _ _ Hd)) as (i & Hlt & Hi).
  apply Hinj in Hi. lia.
Qed.

(** Past the type check, the reply for the id that [call] stored invokes the
    continuation once with the payload and removes the id, and a second
    delivery for that id does nothing. *)
Lemma deliver_once (self : Service.t) (w : World) msg cb rep :
  callable cb = true ->
  let uid := entropy w (drawn w) in
  let s1 := called self w msg cb in
  exists s2,
    _Service.deliver Service.super Service.set_super Service.apply rep uid s1
    = (Return tt, s2)
    /\ invoked s2.2 = (invoked w ++ [(cb, [rep])])%list
    /\ _Service._responses (Service.super s2.1) !! uid = None
    /\ _Service.deliver Service.super Service.set_super Service.apply rep uid s2
       = (Return tt, s2).
Proof.
  intros Hc uid s1.
  assert (Hd : _Service._responses (Service.super s1.1) !! uid
               = Some {| Deferred.callbacks := [(cb, [])] |}) by apply lookup_insert_eq.
  rewrite (deliver_present Service.super Service.set_super Service.apply rep uid _ s1 Hd).
  unfold Deferred.callback, Deferred.run, Service.apply, on_world, call_user. cbn.
  rewrite Hc. cbn. eexists. split; [reflexivity |]. cbn.
  split; [reflexivity |].
  assert (Hgone : delete uid (<[uid := {| Deferred.callbacks := [(cb, [])] |}]>
                    (_Service._responses (Service.super self))) !! uid = None)
    by apply lookup_delete_eq.
  split; [exact Hgone |].
  by apply deliver_absent.
Qed.

(** C5: when the callback [call] would use is not callable, [call] raises its
    type error in the state it was entered in: nothing was sent and the
    pending table is as before. *)
Theorem C5_call_rejects_non_callable (self : Service.t) (msg cb : pyvalue) (w : World) :
  callable (Service.selected self cb) = false ->
  exists s',
    Service.call msg cb (self, w) = (Raise (TypeError "Callback has to be callable."), s')
    /\ Connection.sent (conn s'.2) = Connection.sent (conn w)
    /\ _Service._responses (Service.super s'.1) = _Service._responses (Service.super self)
    /\ s' = (self, w).
Proof. intros Hc. exists (self, w). by rewrite call_not_callable. Qed.

Lemma C5_call_rejects_non_callable_witness :
  exists s',
    Service.call request (PyStr "onResult") (srv1, world0)
    = (Raise (TypeError "Callback has to be callable."), s')
    /\ Connection.sent (conn s'.2) = []
    /\ _Service._responses (Service.super s'.1) = ∅
    /\ s' = (srv1, world0).
Proof. exact (C5_call_rejects_non_callable srv1 request (PyStr "onResult") world0 eq_refl). Defined.

(** C10: [call(msg)] with the callback omitted or [None] is [call(msg, d)]
    for the default [d] given to the constructor; with a callable default it
    returns, having stored the default under the fresh id and sent the
    request with that id; with the default [None] it raises its type error
    before anything is stored or sent. *)
Theorem C10_call_default_callback (oid : nat) (iTag srvType : string)
    (d msg : pyvalue) (w : World) :
  let self := Service.__init__ oid iTag srvType d in
  Service.selected self PyNone = d
  /\ Service.call msg PyNone (self, w) = Service.call msg d (self, w)
  /\ (callable d = true ->
      Service.call msg PyNone (self, w) = (Return tt, called self w msg d)
      /\ _Service._responses (Service.super (called self w msg d).1) !! entropy w (drawn w)
         = Some {| Deferred.callbacks := [(d, [])] |}
      /\ Connection.sent (conn (called self w msg d).2)
         = (Connection.sent (conn w) ++ [(iTag, srvType, msg, entropy w (drawn w))])%list)
  /\ (d = PyNone ->
      Service.call msg PyNone (self, w)
      = (Raise (TypeError "Callback has to be callable."), (self, w))).
Proof.
  intros self.
  assert (Hsel : Service.selected self d = d) by (unfold Service.selected; by destruct (truthy d)).
  split; [reflexivity |]. split; [| split].
  - destruct (callable d) eqn:Hc.
    + rewrite !call_callable by (by rewrite ?Hsel). by rewrite Hsel.
    + by rewrite !call_not_callable by (by rewrite ?Hsel).
  - intros Hc. split; [by rewrite call_callable |].
    split; [apply lookup_insert_eq | reflexivity].
  - intros ->. by apply call_not_callable.
Qed.

Lemma C10_call_default_callback_witness :
  (Service.call request PyNone (srv1, world0)
   = (Return tt, called srv1 world0 request (PyFun "onResult"))
   /\ _Service._responses (Service.super (called srv1 world0 request (PyFun "onResult")).1)
        !! entropy world0 (drawn world0)
      = Some {| Deferred.callbacks := [(PyFun "onResult", [])] |}
   /\ Connection.sent (conn (called srv1 world0 request (PyFun "onResult")).2)
      = (Connection.sent (conn world0)
           ++ [("srv1", "pkg/Add", request, entropy world0 (drawn world0))])%list)
  /\ Service.call request PyNone (Service.__init__ 0 "srv1" "pkg/Add" PyNone, world0)
     = (Raise (TypeError "Callback has to be callable."),
        (Service.__init__ 0 "srv1" "pkg/Add" PyNone, world0)).
Proof.
  split.
  - exact (proj1 (proj2 (proj2 (C10_call_default_callback
             0 "srv1" "pkg/Add" (PyFun "onResult") request world0))) eq_refl).
  - exact (proj2 (proj2 (proj2 (C10_call_default_callback
             0 "srv1" "pkg/Add" PyNone request world0))) eq_refl).
Defined.

(** C1: [call(request)] on ["srv1"] stores the continuation under the fresh
    id [u1], sends the request with that id and returns; the reply of the
    declared type with id [u1] then raises [AttributeError] out of [callback],
    and the continuation is not invoked. *)
Theorem C1_reply_after_call_raises :
  Service.call request PyNone (srv1, world0) = (Return tt, srv1_called)
  /\ _Service._responses (Service.super srv1_called.1) !! "u1"
     = Some {| Deferred.callbacks := [(PyFun "onResult", [])] |}
  /\ Connection.sent (conn srv1_called.2) = [("srv1", "pkg/Add", request, "u1")]
  /\ Service.callback "pkg/Add" reply "u1" srv1_called
     = (Raise (AttributeError "_msgType"), srv1_called)
  /\ invoked srv1_called.2 = [].
Proof.
  split; [| split; [| split; [| split]]].
  - vm_compute. reflexivity.
  - vm_compute. reflexivity.
  - vm_compute. reflexivity.
  - apply callback_AttributeError.
  - vm_compute. reflexivity.
Qed.

(** C3: a reply of the declared type whose id is not pending raises
    [AttributeError] out of [callback]. *)
Theorem C3_unknown_id_raises :
  _Service._responses (Service.super srv1) !! "u9" = None
  /\ Service.callback "pkg/Add" reply "u9" (srv1, world0)
     = (Raise (AttributeError "_msgType"), (srv1, world0)).
Proof. split; [reflexivity | apply callback_AttributeError]. Qed.

(** C4: after [call] has stored [u1] and the reply for [u1] has been
    delivered, [u1] is still in the pending table. *)
Theorem C4_id_pending_after_reply :
  _Service._responses (Service.super srv1_called.1) !! "u1"
  = Some {| Deferred.callbacks := [(PyFun "onResult", [])] |}
  /\ (Service.callback "pkg/Add" reply "u1" srv1_called).1
     = Raise (AttributeError "_msgType")
  /\ _Service._responses
       (Service.super (Service.callback "pkg/Add" reply "u1" srv1_called).2.1) !! "u1"
     = Some {| Deferred.callbacks := [(PyFun "onResult", [])] |}.
Proof. split; [| split]; vm_compute; reflexivity. Qed.

(** ** ROSService *)

(** [_rosCB] stores the Deferred of its bound [_callback] under a new id,
    forwards the request with that id, and waits on a new event. *)
Lemma rosCB_send_waits (self : ROSService.t) (w : World) (buff : pyvalue) :
  let uid := entropy w (drawn w) in
  let ev := length (events w) in
  exists s',
    ROSService._rosCB_send (PyAnyMsg buff) (self, w) = (Return (uid, ev), s')
    /\ _Service._responses (ROSService.super s'.1) !! uid
       = Some {| Deferred.callbacks := [(PyMethod "_callback", [PyStr uid; PyEvent ev])] |}
    /\ Connection.sent (conn s'.2)
       = (Connection.sent (conn w)
            ++ [(_Service._iTag (ROSService.super self),
                 _Service._srvType (ROSService.super self), PyStringIO buff, uid)])%list
    /\ ROSService._pending s'.1 = ROSService._pending self
    /\ is_set ev s'.2 = false
    /\ ROSService._rosCB_resume (uid, ev) s' = (Return None, s').
Proof.
  intros uid ev. eexists. split; [unfold ROSService._rosCB_send; reflexivity |]. cbn.
  assert (Hclear : is_set ev (with_events (events w ++ [false]) w) = false).
  { unfold is_set; cbn. by rewrite lookup_app_r, Nat.sub_diag by done. }
  split; [apply lookup_insert_eq |]. split; [reflexivity |]. split; [reflexivity |].
  unfold ROSService._rosCB_resume, is_set in *. cbn in *.
  split; [exact Hclear |].
  destruct (_ !! ev) as [[] |]; done.
Qed.

(** Past the type check of [callback], the reply for a waiting call fills
    the result slot and sets the event, and the call wakes up and returns the
    reply, as an [AnyMsg]. *)
Lemma deliver_to_waiter (self : ROSService.t) (w : World) uid ev msg :
  _Service._responses (ROSService.super self) !! uid
  = Some {| Deferred.callbacks := [(PyMethod "_callback", [PyStr uid; PyEvent ev])] |} ->
  ev < length (events w) ->
  exists s' s'',
    _Service.deliver ROSService.super ROSService.set_super ROSService.apply msg uid (self, w)
    = (Return tt, s')
    /\ ROSService._pending s'.1 !! uid = Some (PyAnyMsg msg)
    /\ is_set ev s'.2 = true
    /\ ROSService._rosCB_resume (uid, ev) s' = (Return (Some (PyAnyMsg msg)), s'')
    /\ ROSService._pending s''.1 !! uid = None.
Proof.
  intros Hd Hev.
  rewrite (deliver_present ROSService.super ROSService.set_super ROSService.apply
             msg uid _ (self, w) Hd). cbn.
  eexists. eexists. split; [reflexivity |]. cbn.
  assert (Hset : is_set ev (with_events (<[ev := true]> (events w)) w) = true).
  { unfold is_set; cbn. by rewrite list_lookup_insert_eq. }
  split; [apply lookup_insert_eq |]. split; [exact Hset |].
  unfold ROSService._rosCB_resume. cbn. rewrite Hset.
  unfold fmap, M_fmap, ROSService._rosCB_wake. cbn.
  rewrite lookup_insert_eq. cbn.
  split; [reflexivity |]. cbn. apply lookup_delete_eq.
Qed.

(** A call that wakes up without a result in its slot raises. *)
Lemma wake_without_result (uid : string) (s : ROSService.t * World) :
  ROSService._pending s.1 !! uid = None ->
  ROSService._rosCB_wake uid s = (Raise (Exception "Interrupted."), s).
Proof.
  intros Hnone. unfold ROSService._rosCB_wake. rewrite Hnone. cbn.
  rewrite delete_id by done. by destruct s as [[? ? ?] ?].
Qed.

(** [__del__] with no result waiting to be picked up sets no event. *)
Lemma del_sets_no_event (s : ROSService.t * World) :
  ROSService._pending s.1 = ∅ ->
  exists s',
    ROSService.__del__ s = (Return tt, s')
    /\ events s'.2 = events s.2
    /\ ROSService._service s'.1 = false
    /\ ROSService._pending s'.1 = ∅.
Proof.
  intros Hempty. destruct s as [self w]. cbn in Hempty.
  unfold ROSService.__del__, mbind, M_bind. cbn.
  rewrite Hempty, map_to_list_empty. cbn.
  eexists. split; [reflexivity |]. by cbn.
Qed.

(** With a reply in [_pending], the loop of [__del__] calls [set] on the
    reply and raises; [_pending] is not cleared. *)
Example del_with_result_raises :
  (ROSService.__del__ ros1_replied).1 = Raise (AttributeError "set")
  /\ ROSService._pending (ROSService.__del__ ros1_replied).2.1 !! "u1"
     = Some (PyAnyMsg (PyStr "resp")).
Proof. split; vm_compute; reflexivity. Qed.

(** * Further properties *)

(** ** Service.call *)

(** X1: when the callback it goes on with is callable, [call] returns having
    drawn one id, stored the Deferred of that callback under it and sent one
    message with the tag and type of the service, the request and that id;
    it registers nothing, sets no event and invokes nothing. *)
Theorem X1_call_effect (self : Service.t) (msg cb : pyvalue) (w : World) :
  callable (Service.selected self cb) = true ->
  exists s',
    Service.call msg cb (self, w) = (Return tt, s')
    /\ _Service._responses (Service.super s'.1) !! entropy w (drawn w)
       = Some {| Deferred.callbacks := [(Service.selected self cb, [])] |}
    /\ Connection.sent (conn s'.2)
       = (Connection.sent (conn w)
            ++ [(_Service._iTag (Service.super self), _Service._srvType (Service.super self),
                 msg, entropy w (drawn w))])%list
    /\ drawn s'.2 = S (drawn w)
    /\ Connection.interfaces (conn s'.2) = Connection.interfaces (conn w)
    /\ events s'.2 = events w
    /\ invoked s'.2 = invoked w
    /\ Service._cb s'.1 = Service._cb self
    /\ _Service._iTag (Service.super s'.1) = _Service._iTag (Service.super self)
    /\ _Service._srvType (Service.super s'.1) = _Service._srvType (Service.super self).
Proof.
  intros Hc. eexists. split; [by apply call_callable |].
  split; [apply lookup_insert_eq |]. by repeat split.
Qed.

Lemma X1_call_effect_witness :
  exists s',
    Service.call request (PyFun "other") (srv1, world0) = (Return tt, s')
    /\ _Service._responses (Service.super s'.1) !! entropy world0 (drawn world0)
       = Some {| Deferred.callbacks := [(Service.selected srv1 (PyFun "other"), [])] |}
    /\ Connection.sent (conn s'.2)
       = (Connection.sent (conn world0)
            ++ [(_Service._iTag (Service.super srv1), _Service._srvType (Service.super srv1),
                 request, entropy world0 (drawn world0))])%list
    /\ drawn s'.2 = S (drawn world0)
    /\ Connection.interfaces (conn s'.2) = Connection.interfaces (conn world0)
    /\ events s'.2 = events world0
    /\ invoked s'.2 = invoked world0
    /\ Service._cb s'.1 = Service._cb srv1
    /\ _Service._iTag (Service.super s'.1) = _Service._iTag (Service.super srv1)
    /\ _Service._srvType (Service.super s'.1) = _Service._srvType (Service.super srv1).
Proof. exact (X1_call_effect srv1 request (PyFun "other") world0 eq_refl). Defined.

(** X2: a [call] that goes through leaves the entries under all other ids
    as they were; when the id it draws is new the pending table grows by one
    entry, and when that id is already pending the table keeps its size: the
    earlier Deferred under it is replaced. *)
Theorem X2_call_other_entries (self : Service.t) (msg cb : pyvalue) (w : World) :
  callable (Service.selected self cb) = true ->
  let uid := entropy w (drawn w) in
  let before := _Service._responses (Service.super self) in
  let after := _Service._responses (Service.super (Service.call msg cb (self, w)).2.1) in
  (forall k, k ≠ uid -> after !! k = before !! k)
  /\ (before !! uid = None -> size after = S (size before))
  /\ (is_Some (before !! uid) ->
      size after = size before
      /\ after !! uid = Some {| Deferred.callbacks := [(Service.selected self cb, [])] |}).
Proof.
  intros Hc uid before after. subst after. rewrite call_callable by done. cbn.
  fold uid before. split; [| split].
  - intros k Hk. by rewrite lookup_insert_ne.
  - intros Hnew. by rewrite map_size_insert_None.
  - intros Hold. split; [by rewrite map_size_insert_Some | apply lookup_insert_eq].
Qed.

Lemma X2_call_other_entries_witness :
  size (_Service._responses
          (Service.super (Service.call request PyNone (srv1, world0)).2.1))
  = S (size (_Service._responses (Service.super srv1)))
  /\ size (_Service._responses
             (Service.super (Service.call request (PyFun "other") (srv1_called.1, world0)).2.1))
     = size (_Service._responses (Service.super srv1_called.1))
  /\ _Service._responses
       (Service.super (Service.call request (PyFun "other") (srv1_called.1, world0)).2.1)
       !! "u1"
     = Some {| Deferred.callbacks := [(PyFun "other", [])] |}.
Proof.
  destruct (X2_call_other_entries srv1 request PyNone world0 eq_refl) as (_ & Hnew & _).
  destruct (X2_call_other_entries srv1_called.1 request (PyFun "other") world0 eq_refl)
    as (_ & _ & Hold).
  split; [apply Hnew; reflexivity |].
  apply Hold. eexists. vm_compute. reflexivity.
Defined.

(** ** Sequences of operations on a Service *)

Lemma service_step_cases (o : service_op) (s : Service.t * World) :
  (service_step o s).2 = s
  \/ (exists msg cb, callable cb = true /\ (service_step o s).2 = called s.1 s.2 msg cb)
  \/ (service_step o s).2
     = (s.1, (unregisterInterface (_Service._iTag (Service.super s.1))
                                  (_Service.oid (Service.super s.1)) s.2).2).
Proof.
  destruct s as [self w], o as [msg cb | msgType msg msgID |]; cbn [service_step].
  - destruct (callable (Service.selected self cb)) eqn:Hc.
    + right; left. exists msg, (Service.selected self cb).
      by rewrite call_callable.
    + left. by rewrite call_not_callable.
  - left. reflexivity.
  - right; right. reflexivity.
Qed.

Lemma service_step_sent (o : service_op) (s : Service.t * World) :
  pending_were_sent s ->
  pending_were_sent (service_step o s).2
  /\ length (Connection.sent (conn (service_step o s).2.2)) + drawn s.2
     = length (Connection.sent (conn s.2)) + drawn (service_step o s).2.2.
Proof.
  intros Hinv.
  destruct (service_step_cases o s) as [-> | [(msg & cb & Hc & ->) | ->]]; [done | |].
  - destruct s as [self w]. split.
    + intros k. unfold called. cbn.
      destruct (decide (k = entropy w (drawn w))) as [-> | Hne].
      * intros _. exists msg. apply elem_of_app. right. apply list_elem_of_singleton.
        reflexivity.
      * rewrite lookup_insert_ne by done. intros Hk.
        destruct (Hinv k Hk) as [m Hm]. exists m. apply elem_of_app. by left.
    + unfold called. cbn. rewrite length_app. cbn. lia.
  - split; [| reflexivity]. exact Hinv.
Qed.

(** X3: over any sequence of calls, deliveries and finalizations of a
    [Service], every pending id stays the correlation id of a message that
    was sent with the tag and type of the service, and as many messages are
    sent as ids are drawn. *)
Theorem X3_pending_ids_were_sent (ops : list service_op) (s : Service.t * World) :
  pending_were_sent s ->
  pending_were_sent (service_run ops s)
  /\ length (Connection.sent (conn (service_run ops s).2)) + drawn s.2
     = length (Connection.sent (conn s.2)) + drawn (service_run ops s).2.
Proof.
  revert s. induction ops as [| o ops IH]; intros s Hinv; [done |].
  cbn [service_run fold_left].
  destruct (service_step_sent o s Hinv) as [Hinv' Hlen].
  destruct (IH _ Hinv') as [Hfinal Hlen'].
  split; [exact Hfinal |]. unfold service_run in *. lia.
Qed.

Lemma X3_pending_ids_were_sent_witness :
  pending_were_sent
    (service_run [OpCall request PyNone; OpDeliver "pkg/Add" reply "u1";
                  OpCall request (PyInt 7); OpDel; OpCall request (PyFun "other")]
                 (srv1, world0))
  /\ length (Connection.sent (conn
        (service_run [OpCall request PyNone; OpDeliver "pkg/Add" reply "u1";
                      OpCall request (PyInt 7); OpDel; OpCall request (PyFun "other")]
                     (srv1, world0)).2)) + drawn world0
     = length (Connection.sent (conn world0))
       + drawn (service_run [OpCall request PyNone; OpDeliver "pkg/Add" reply "u1";
                             OpCall request (PyInt 7); OpDel;
                             OpCall request (PyFun "other")]
                            (srv1, world0)).2.
Proof.
  apply (X3_pending_ids_were_sent _ (srv1, world0)).
  intros k [d Hd]. cbn in Hd. by rewrite lookup_empty in Hd.
Defined.

(** X4: over any sequence of calls, deliveries and finalizations of a
    [Service], no function of the user is ever invoked, and an id that is
    pending stays pending. *)
Theorem X4_nothing_invoked_nothing_consumed (ops : list service_op) (s : Service.t * World) :
  invoked (service_run ops s).2 = invoked s.2
  /\ (forall k, is_Some (_Service._responses (Service.super s.1) !! k) ->
                is_Some (_Service._responses (Service.super (service_run ops s).1) !! k)).
Proof.
  revert s. induction ops as [| o ops IH]; intros s; [done |].
  cbn [service_run fold_left].
  destruct (IH (service_step o s).2) as [Hinv Hdom]. unfold service_run in *.
  rewrite Hinv. clear Hinv.
  destruct (service_step_cases o s) as [Heq | [(msg & cb & Hc & Heq) | Heq]];
    rewrite Heq in *; destruct s as [self w].
  - done.
  - split; [reflexivity |]. intros k Hk. apply Hdom. unfold called. cbn.
    destruct (decide (k = entropy w (drawn w))) as [-> | Hne].
    + rewrite lookup_insert_eq. by eexists.
    + by rewrite lookup_insert_ne.
  - split; [reflexivity |]. intros k Hk. by apply Hdom.
Qed.

(** ** Lines 119 to 122 of _Service.callback *)

(** X5: the code of [callback] after its type check, run for a [Service]:
    for an id that is not pending it does nothing; for a pending id whose
    Deferred holds one callable callback it removes that id only, invokes that
    callback once with the message, sends nothing, and a second run for the
    same id does nothing. *)
Theorem X5_deliver_consumes_one_entry (self : Service.t) (w : World)
    (msgID : string) (msg : pyvalue) :
  (_Service._responses (Service.super self) !! msgID = None ->
   _Service.deliver Service.super Service.set_super Service.apply msg msgID (self, w)
   = (Return tt, (self, w)))
  /\ (forall cb,
        _Service._responses (Service.super self) !! msgID
        = Some {| Deferred.callbacks := [(cb, [])] |} ->
        callable cb = true ->
        exists s',
          _Service.deliver Service.super Service.set_super Service.apply msg msgID (self, w)
          = (Return tt, s')
          /\ _Service._responses (Service.super s'.1)
             = delete msgID (_Service._responses (Service.super self))
          /\ invoked s'.2 = (invoked w ++ [(cb, [msg])])%list
          /\ conn s'.2 = conn w
          /\ forall msg',
               _Service.deliver Service.super Service.set_super Service.apply msg' msgID s'
               = (Return tt, s')).
Proof.
  split.
  - intros Hnone. by apply deliver_absent.
  - intros cb Hd Hc.
    rewrite (deliver_present Service.super Service.set_super Service.apply
               msg msgID _ (self, w) Hd).
    unfold Deferred.callback, Deferred.run, Service.apply, on_world, call_user. cbn.
    rewrite Hc. cbn. eexists. split; [reflexivity |]. cbn.
    split; [reflexivity |]. split; [reflexivity |]. split; [reflexivity |].
    intros msg'. apply deliver_absent. cbn. apply lookup_delete_eq.
Qed.

Lemma X5_deliver_consumes_one_entry_witness :
  _Service.deliver Service.super Service.set_super Service.apply reply "u9" srv1_called
  = (Return tt, srv1_called)
  /\ exists s',
       _Service.deliver Service.super Service.set_super Service.apply reply "u1" srv1_called
       = (Return tt, s')
       /\ _Service._responses (Service.super s'.1)
          = delete "u1" (_Service._responses (Service.super srv1_called.1))
       /\ invoked s'.2 = (invoked srv1_called.2 ++ [(PyFun "onResult", [reply])])%list
       /\ conn s'.2 = conn srv1_called.2
       /\ forall msg',
            _Service.deliver Service.super Service.set_super Service.apply msg' "u1" s'
            = (Return tt, s').
Proof.
  split.
  - apply (proj1 (X5_deliver_consumes_one_entry srv1_called.1 srv1_called.2 "u9" reply)).
    vm_compute. reflexivity.
  - apply (proj2 (X5_deliver_consumes_one_entry srv1_called.1 srv1_called.2 "u1" reply)
             (PyFun "onResult")).
    + vm_compute. reflexivity.
    + reflexivity.
Defined.

(** ** ROSService: the hand-over from _callback to _rosCB *)

Lemma is_set_insert_eq (ev : nat) (w : World) :
  ev < length (events w) ->
  is_set ev (with_events (<[ev := true]> (events w)) w) = true.
Proof. intros Hev. unfold is_set. cbn. by rewrite list_lookup_insert_eq. Qed.

Lemma is_set_insert_ne (ev e : nat) (w : World) :
  e ≠ ev ->
  is_set e (with_events (<[ev := true]> (events w)) w) = is_set e w.
Proof. intros Hne. unfold is_set. cbn. by rewrite list_lookup_insert_ne. Qed.

(** X6: [_callback(msg, uid, event)] for an existing event stores the
    message under [uid] as an [AnyMsg], sets that event and no other, and
    leaves the results under other ids alone; the call waiting for [uid] on
    that event then returns that [AnyMsg] and empties the slot, so that a
    second wake-up for [uid] raises. *)
Theorem X6_callback_hands_reply_over (self : ROSService.t) (w : World)
    (uid : string) (ev : nat) (msg : pyvalue) :
  ev < length (events w) ->
  exists s' s'',
    ROSService._callback msg uid (PyEvent ev) (self, w) = (Return PyNone, s')
    /\ ROSService._pending s'.1 !! uid = Some (PyAnyMsg msg)
    /\ (forall k, k ≠ uid -> ROSService._pending s'.1 !! k = ROSService._pending self !! k)
    /\ is_set ev s'.2 = true
    /\ (forall e, e ≠ ev -> is_set e s'.2 = is_set e w)
    /\ ROSService._rosCB_resume (uid, ev) s' = (Return (Some (PyAnyMsg msg)), s'')
    /\ ROSService._pending s''.1 = delete uid (ROSService._pending self)
    /\ ROSService._rosCB_wake uid s'' = (Raise (Exception "Interrupted."), s'').
Proof.
  intros Hev. eexists. eexists.
  split; [reflexivity |]. cbn.
  split; [apply lookup_insert_eq |].
  split; [intros k Hk; by rewrite lookup_insert_ne |].
  split; [by apply is_set_insert_eq |].
  split; [intros e He; by apply is_set_insert_ne |].
  unfold ROSService._rosCB_resume. cbn. rewrite is_set_insert_eq by done.
  unfold fmap, M_fmap, ROSService._rosCB_wake. cbn.
  rewrite lookup_insert_eq. cbn.
  split; [reflexivity |]. cbn. rewrite delete_insert_eq.
  split; [reflexivity |].
  rewrite lookup_delete_eq. cbn. by rewrite delete_delete_eq.
Qed.

Lemma X6_callback_hands_reply_over_witness :
  exists s' s'',
    ROSService._callback (PyStr "resp") "u1" (PyEvent 0) ros1_waiting = (Return PyNone, s')
    /\ ROSService._pending s'.1 !! "u1" = Some (PyAnyMsg (PyStr "resp"))
    /\ (forall k, k ≠ "u1" ->
          ROSService._pending s'.1 !! k = ROSService._pending ros1_waiting.1 !! k)
    /\ is_set 0 s'.2 = true
    /\ (forall e, e ≠ 0 -> is_set e s'.2 = is_set e ros1_waiting.2)
    /\ ROSService._rosCB_resume ("u1", 0) s' = (Return (Some (PyAnyMsg (PyStr "resp"))), s'')
    /\ ROSService._pending s''.1 = delete "u1" (ROSService._pending ros1_waiting.1)
    /\ ROSService._rosCB_wake "u1" s'' = (Raise (Exception "Interrupted."), s'').
Proof.
  apply (X6_callback_hands_reply_over ros1_waiting.1 ros1_waiting.2 "u1" 0 (PyStr "resp")).
  vm_compute. lia.
Defined.

(** X7: a call waiting in [_rosCB] does not go on, and changes nothing,
    while its event is clear; once the event is set, it raises when its slot
    is empty, leaving the state as it is, and also when the slot holds
    something that is not a message, which it removes. *)
Theorem X7_resume_without_reply (uid : string) (ev : nat) (s : ROSService.t * World) :
  (is_set ev s.2 = false -> ROSService._rosCB_resume (uid, ev) s = (Return None, s))
  /\ (is_set ev s.2 = true -> ROSService._pending s.1 !! uid = None ->
      ROSService._rosCB_resume (uid, ev) s = (Raise (Exception "Interrupted."), s))
  /\ (forall v, is_set ev s.2 = true -> ROSService._pending s.1 !! uid = Some v ->
      is_Message v = false ->
      ROSService._rosCB_resume (uid, ev) s
      = (Raise (Exception "Interrupted."),
         (ROSService.with_pending (delete uid (ROSService._pending s.1)) s.1, s.2))).
Proof.
  unfold ROSService._rosCB_resume. cbn. split; [| split].
  - by intros ->.
  - intros -> Hnone. unfold fmap, M_fmap. by rewrite wake_without_result.
  - intros v -> Hv Hmsg. unfold fmap, M_fmap, ROSService._rosCB_wake.
    rewrite Hv. cbn. by rewrite Hmsg.
Qed.

Lemma X7_resume_without_reply_witness :
  ROSService._rosCB_resume ("u1", 0) ros1_waiting = (Return None, ros1_waiting)
  /\ ROSService._rosCB_resume ("u2", 0) ros1_replied
     = (Raise (Exception "Interrupted."), ros1_replied).
Proof.
  split.
  - apply (proj1 (X7_resume_without_reply "u1" 0 ros1_waiting)). reflexivity.
  - apply (proj1 (proj2 (X7_resume_without_reply "u2" 0 ros1_replied))); reflexivity.
Defined.

(** X8: [_rosCB(req)] creates one event, clear, draws one id, stores under
    it a Deferred whose only callback is the bound [_callback] with that id
    and that event, and forwards the buffer of the request as a [StringIO]
    with that id; the Deferreds under other ids, the results and the flags of
    the events that existed are as before, and the call waits. *)
Theorem X8_rosCB_forwards_and_waits (self : ROSService.t) (w : World) (buff : pyvalue) :
  let uid := entropy w (drawn w) in
  let ev := length (events w) in
  exists s',
    ROSService._rosCB_send (PyAnyMsg buff) (self, w) = (Return (uid, ev), s')
    /\ _Service._responses (ROSService.super s'.1) !! uid
       = Some {| Deferred.callbacks := [(PyMethod "_callback", [PyStr uid; PyEvent ev])] |}
    /\ (forall k, k ≠ uid ->
          _Service._responses (ROSService.super s'.1) !! k
          = _Service._responses (ROSService.super self) !! k)
    /\ Connection.sent (conn s'.2)
       = (Connection.sent (conn w)
            ++ [(_Service._iTag (ROSService.super self),
                 _Service._srvType (ROSService.super self), PyStringIO buff, uid)])%list
    /\ ROSService._pending s'.1 = ROSService._pending self
    /\ drawn s'.2 = S (drawn w)
    /\ length (events s'.2) = S (length (events w))
    /\ (forall e, e < length (events w) -> is_set e s'.2 = is_set e w)
    /\ ROSService._rosCB_resume (uid, ev) s' = (Return None, s').
Proof.
  intros uid ev.
  destruct (rosCB_send_waits self w buff) as (s' & Hrun & Hd & Hsent & Hpend & _ & Hwait).
  exists s'. split; [exact Hrun |]. split; [exact Hd |].
  unfold ROSService._rosCB_send in Hrun. injection Hrun as <-. cbn in *.
  split; [intros k Hk; by rewrite lookup_insert_ne |].
  split; [exact Hsent |]. split; [reflexivity |]. split; [reflexivity |].
  split; [rewrite length_app; cbn; lia |].
  split; [| exact Hwait].
  intros e He. unfold is_set. cbn. by rewrite lookup_app_l.
Qed.

(** ** ROSService.__del__ *)

Lemma for_each_set_messages (vs : list pyvalue) (s : ROSService.t * World) :
  Forall (fun v => is_Message v = true) vs ->
  for_each (fun event => on_world (event_set event)) vs s
  = (if vs is [] then Return tt else Raise (AttributeError "set"), s).
Proof.
  intros Hvs. destruct Hvs as [| v vs Hv _]; [reflexivity |].
  destruct v; try discriminate Hv. by destruct s.
Qed.

Lemma pending_values_messages (self : ROSService.t) :
  slots_hold_messages self ->
  Forall (fun v => is_Message v = true) (map_to_list (ROSService._pending self)).*2.
Proof.
  intros Hinv. apply Forall_fmap, Forall_forall. intros [k v] Hkv.
  apply elem_of_map_to_list in Hkv. cbn. by eapply Hinv.
Qed.

(** What [__del__] does to the world and to the service before its loop. *)
Lemma del_cases (s : ROSService.t * World) :
  slots_hold_messages s.1 ->
  let w' := (unregisterInterface (_Service._iTag (ROSService.super s.1))
                                 (_Service.oid (ROSService.super s.1)) s.2).2 in
  (ROSService._pending s.1 = ∅
   /\ ROSService.__del__ s
      = (Return tt, (ROSService.with_pending ∅ (ROSService.with_service false s.1), w')))
  \/ (ROSService._pending s.1 ≠ ∅
      /\ ROSService.__del__ s
         = (Raise (AttributeError "set"), (ROSService.with_service false s.1, w'))).
Proof.
  intros Hinv w'. destruct s as [self w]. cbn in *.
  pose proof (pending_values_messages self Hinv) as Hvs.
  unfold ROSService.__del__, mbind, M_bind. cbn.
  rewrite (for_each_set_messages _ _ Hvs).
  destruct (map_to_list (ROSService._pending self)) as [| kv l] eqn:Hl.
  - left. by apply map_to_list_empty_iff in Hl.
  - right. split; [| reflexivity].
    intros Hempty. rewrite Hempty, map_to_list_empty in Hl. discriminate Hl.
Qed.

(** X9: when the results in [_pending] are messages, [__del__] sets no
    event and touches no Deferred, whatever is waiting; it shuts the ROS
    service down, and then returns with [_pending] empty when it was empty,
    and raises from [event.set()] with [_pending] untouched when it was not. *)
Theorem X9_del_sets_no_event (s : ROSService.t * World) :
  slots_hold_messages s.1 ->
  events (ROSService.__del__ s).2.2 = events s.2
  /\ _Service._responses (ROSService.super (ROSService.__del__ s).2.1)
     = _Service._responses (ROSService.super s.1)
  /\ ROSService._service (ROSService.__del__ s).2.1 = false
  /\ ROSService._pending (ROSService.__del__ s).2.1 = ROSService._pending s.1
  /\ (ROSService.__del__ s).1
     = (if decide (ROSService._pending s.1 = ∅)
        then Return tt else Raise (AttributeError "set")).
Proof.
  intros Hinv.
  destruct (del_cases s Hinv) as [[Hempty ->] | [Hfull ->]]; cbn.
  - rewrite Hempty. by rewrite decide_True.
  - by rewrite decide_False.
Qed.

Lemma X9_del_sets_no_event_witness :
  (events (ROSService.__del__ ros1_waiting2).2.2 = events ros1_waiting2.2
   /\ _Service._responses (ROSService.super (ROSService.__del__ ros1_waiting2).2.1)
      = _Service._responses (ROSService.super ros1_waiting2.1)
   /\ ROSService._service (ROSService.__del__ ros1_waiting2).2.1 = false
   /\ ROSService._pending (ROSService.__del__ ros1_waiting2).2.1
      = ROSService._pending ros1_waiting2.1
   /\ (ROSService.__del__ ros1_waiting2).1
      = (if decide (ROSService._pending ros1_waiting2.1 = ∅)
         then Return tt else Raise (AttributeError "set")))
  /\ (ROSService.__del__ ros1_replied).1
     = (if decide (ROSService._pending ros1_replied.1 = ∅)
        then Return tt else Raise (AttributeError "set")).
Proof.
  split.
  - apply (X9_del_sets_no_event ros1_waiting2).
    assert (E : ROSService._pending ros1_waiting2.1 = ∅) by (vm_compute; reflexivity).
    intros k v Hv. rewrite E in Hv. by rewrite lookup_empty in Hv.
  - apply (X9_del_sets_no_event ros1_replied).
    assert (E : ROSService._pending ros1_replied.1 = {[ "u1" := PyAnyMsg (PyStr "resp") ]})
      by (vm_compute; reflexivity).
    intros k v Hv. rewrite E in Hv.
    by apply lookup_singleton_Some in Hv as [_ <-].
Defined.

(** ** Sequences of operations on a ROSService *)

Lemma on_world_self {O A} (m : M World A) (s : O * World) : (on_world m s).2.1 = s.1.
Proof. unfold on_world. by destruct (m s.2). Qed.

Lemma callback_pending (msg : pyvalue) (uid : string) (event : pyvalue)
    (s : ROSService.t * World) :
  ROSService._pending (ROSService._callback msg uid event s).2.1
  = <[uid := PyAnyMsg msg]> (ROSService._pending s.1).
Proof. destruct s as [self w]. by destruct event. Qed.

Lemma insert_keeps_messages (self self' : ROSService.t) (uid : string) (msg : pyvalue) :
  slots_hold_messages self ->
  ROSService._pending self' = <[uid := PyAnyMsg msg]> (ROSService._pending self) ->
  slots_hold_messages self'.
Proof.
  intros Hinv Heq k v. rewrite Heq.
  intros [[_ <-] | [_ Hv]]%lookup_insert_Some; [reflexivity | by eapply Hinv].
Qed.

Lemma same_pending_keeps_messages (self self' : ROSService.t) :
  slots_hold_messages self ->
  ROSService._pending self' = ROSService._pending self ->
  slots_hold_messages self'.
Proof. intros Hinv Heq k v. rewrite Heq. apply Hinv. Qed.

Lemma apply_keeps_messages (f : pyvalue) (args : list pyvalue) (s : ROSService.t * World) :
  slots_hold_messages s.1 -> slots_hold_messages (ROSService.apply f args s).2.1.
Proof.
  intros Hinv. unfold ROSService.apply.
  repeat case_match; try (by rewrite on_world_self).
  eapply insert_keeps_messages; [exact Hinv | apply callback_pending].
Qed.

Lemma run_keeps_messages (cbs : list (pyvalue * list pyvalue)) (res : pyvalue)
    (s : ROSService.t * World) :
  slots_hold_messages s.1 ->
  slots_hold_messages (Deferred.run ROSService.apply cbs res s).2.1.
Proof.
  revert res s. induction cbs as [| [f args] cbs IH]; intros res s Hinv; [done |].
  cbn [Deferred.run].
  pose proof (apply_keeps_messages f (res :: args) s Hinv) as Hstep.
  destruct (ROSService.apply f (res :: args) s) as [[r | e] s']; [by apply IH | done].
Qed.

Lemma bridge_step_keeps_messages (o : bridge_op) (s : ROSService.t * World) :
  slots_hold_messages s.1 -> slots_hold_messages (bridge_step o s).1.
Proof.
  intros Hinv. destruct o as [req | msgType msg msgID | msg msgID | uid |]; cbn [bridge_step].
  - eapply same_pending_keeps_messages; [exact Hinv |].
    destruct s as [self w]. unfold ROSService._rosCB_send. by destruct req.
  - done.
  - unfold _Service.deliver, _Service.pop_response, mbind, M_bind.
    destruct (_Service._responses (ROSService.super s.1) !! msgID) as [d |]; [| done].
    by apply run_keeps_messages.
  - intros k v. unfold ROSService._rosCB_wake.
    case_match; cbn; intros [_ Hv]%lookup_delete_Some; by eapply Hinv.
  - destruct (del_cases s Hinv) as [[_ ->] | [_ ->]]; intros k v Hv; cbn in Hv.
    + by rewrite lookup_empty in Hv.
    + by eapply Hinv.
Qed.

(** X10: the results in [_pending] stay messages over any sequence of
    requests, deliveries, fired Deferreds, wake-ups and finalizations of a
    [ROSService], so that at no point of such a sequence does [__del__] set
    an event. *)
Theorem X10_del_never_sets_an_event (ops : list bridge_op) (s : ROSService.t * World) :
  slots_hold_messages s.1 ->
  slots_hold_messages (bridge_run ops s).1
  /\ events (ROSService.__del__ (bridge_run ops s)).2.2 = events (bridge_run ops s).2.
Proof.
  intros Hinv.
  assert (Hfinal : slots_hold_messages (bridge_run ops s).1).
  { revert s Hinv. induction ops as [| o ops IH]; intros s Hinv; [done |].
    cbn [bridge_run fold_left]. apply IH. by apply bridge_step_keeps_messages. }
  split; [exact Hfinal |].
  destruct (del_cases _ Hfinal) as [[_ ->] | [_ ->]]; reflexivity.
Qed.

Lemma X10_del_never_sets_an_event_witness :
  slots_hold_messages
    (bridge_run [BrRequest (PyAnyMsg (PyStr "req-a")); BrRequest (PyAnyMsg (PyStr "req-b"));
                 BrFire (PyStr "resp-b") "u2"; BrDeliver "pkg/Add" (PyStr "resp-a") "u1"]
                (ros1, world0)).1
  /\ events (ROSService.__del__
       (bridge_run [BrRequest (PyAnyMsg (PyStr "req-a"));
                    BrRequest (PyAnyMsg (PyStr "req-b"));
                    BrFire (PyStr "resp-b") "u2"; BrDeliver "pkg/Add" (PyStr "resp-a") "u1"]
                   (ros1, world0))).2.2
     = events (bridge_run [BrRequest (PyAnyMsg (PyStr "req-a"));
                           BrRequest (PyAnyMsg (PyStr "req-b"));
                           BrFire (PyStr "resp-b") "u2";
                           BrDeliver "pkg/Add" (PyStr "resp-a") "u1"]
                          (ros1, world0)).2.
Proof.
  apply (X10_del_never_sets_an_event _ (ros1, world0)).
  intros k v Hv. cbn in Hv. by rewrite lookup_empty in Hv.
Defined.

(** ** ROSPublisher *)

Lemma rosCB_publishes (self : ROSPublisher.t) (buff : pyvalue) (w : World) :
  ROSPublisher._rosCB (PyAnyMsg buff) (self, w)
  = (Return tt,
     (self,
      with_conn
        {| Connection.sent :=
             Connection.sent (conn w)
               ++ [(_Publisher._iTag (ROSPublisher.super self),
                    _Publisher._msgType (ROSPublisher.super self), PyStringIO buff, "nil")];
           Connection.interfaces := Connection.interfaces (conn w) |} w)).
Proof. reflexivity. Qed.

(** X11: the ROS messages handed to [_rosCB] one after the other are sent in
    that order, one message each, with the tag and type of the publisher, the
    buffer as a [StringIO] and ['nil'] as correlation id; nothing else
    changes.  A value without [_buff] raises and nothing is sent. *)
Theorem X11_rosCB_forwards_in_order (self : ROSPublisher.t) (buffs : list pyvalue)
    (w : World) :
  (exists w',
     for_each ROSPublisher._rosCB (PyAnyMsg <$> buffs) (self, w) = (Return tt, (self, w'))
     /\ Connection.sent (conn w')
        = (Connection.sent (conn w)
             ++ ((fun buff => (_Publisher._iTag (ROSPublisher.super self),
                               _Publisher._msgType (ROSPublisher.super self),
                               PyStringIO buff, "nil")) <$> buffs))%list
     /\ Connection.interfaces (conn w') = Connection.interfaces (conn w)
     /\ drawn w' = drawn w /\ events w' = events w /\ invoked w' = invoked w)
  /\ (forall msg, is_Message msg = false ->
        ROSPublisher._rosCB msg (self, w) = (Raise (AttributeError "_buff"), (self, w))).
Proof.
  split.
  - revert w. induction buffs as [| buff buffs IH]; intros w.
    + exists w. cbn. by rewrite app_nil_r.
    + cbn [fmap list_fmap for_each].
      erewrite bind_Return by apply rosCB_publishes.
      destruct (IH (with_conn
                      {| Connection.sent :=
                           Connection.sent (conn w)
                             ++ [(_Publisher._iTag (ROSPublisher.super self),
                                  _Publisher._msgType (ROSPublisher.super self),
                                  PyStringIO buff, "nil")];
                         Connection.interfaces := Connection.interfaces (conn w) |} w))
        as (w' & Hrun & Hsent & Hrest).
      exists w'. split; [exact Hrun |]. split; [| exact Hrest].
      rewrite Hsent. cbn. by rewrite <- app_assoc.
  - intros msg Hmsg. by destruct msg.
Qed.

Lemma X11_rosCB_forwards_in_order_witness :
  (exists w',
     for_each ROSPublisher._rosCB [PyAnyMsg (PyStr "a"); PyAnyMsg (PyStr "b")]
       (rospub1, world0)
     = (Return tt, (rospub1, w'))
     /\ Connection.sent (conn w')
        = [("topic2", "std_msgs/String", PyStringIO (PyStr "a"), "nil");
           ("topic2", "std_msgs/String", PyStringIO (PyStr "b"), "nil")]
     /\ Connection.interfaces (conn w') = []
     /\ drawn w' = 0 /\ events w' = [] /\ invoked w' = [])
  /\ ROSPublisher._rosCB (PyStr "a") (rospub1, world0)
     = (Raise (AttributeError "_buff"), (rospub1, world0)).
Proof.
  destruct (X11_rosCB_forwards_in_order rospub1 [PyStr "a"; PyStr "b"] world0)
    as [Hrun Herr].
  split; [exact Hrun | by apply Herr].
Defined.

(** ** ROSSubscriber *)

(** X12: a message of the declared type delivered to a [ROSSubscriber] is
    handed to its ROS Publisher once, as the buffer of an [AnyMsg], and
    nothing is sent on the Connection; a message of another type raises the
    type error and nothing is handed to the ROS Publisher. *)
Theorem X12_ros_subscriber_callback (self : ROSSubscriber.t) (msgType : string)
    (msg : pyvalue) (x : string) (w : World) :
  _Subscriber._cb (ROSSubscriber.super self) = PyMethod "_callback" ->
  (msgType = _Subscriber._msgType (ROSSubscriber.super self) ->
   ROSSubscriber.callback msgType msg x (self, w)
   = (Return tt, (ROSSubscriber.with_pub (ROSSubscriber._pub self ++ [PyAnyMsg msg]) self, w)))
  /\ (msgType ≠ _Subscriber._msgType (ROSSubscriber.super self) ->
      ROSSubscriber.callback msgType msg x (self, w)
      = (Raise (TypeError "Received unexpected message type."), (self, w))).
Proof.
  intros Hcb. unfold ROSSubscriber.callback. cbn. split.
  - intros ->. rewrite String.eqb_refl, Hcb. reflexivity.
  - intros Hne. by apply String.eqb_neq in Hne as ->.
Qed.

Lemma X12_ros_subscriber_callback_witness :
  ROSSubscriber.callback "std_msgs/String" (PyStr "hello") "nil" (rossub1, world0)
  = (Return tt, (ROSSubscriber.with_pub [PyAnyMsg (PyStr "hello")] rossub1, world0))
  /\ ROSSubscriber.callback "std_msgs/Int8" (PyStr "hello") "nil" (rossub1, world0)
     = (Raise (TypeError "Received unexpected message type."), (rossub1, world0)).
Proof.
  destruct (X12_ros_subscriber_callback rossub1 "std_msgs/String" (PyStr "hello") "nil"
              world0 eq_refl) as [Hok _].
  destruct (X12_ros_subscriber_callback rossub1 "std_msgs/Int8" (PyStr "hello") "nil"
              world0 eq_refl) as [_ Herr].
  split; [by apply Hok | by apply Herr].
Defined.

(** ** The check of the message type in ROSSubscriber.__init__ *)

Lemma split_length (c : ascii) (s : string) :
  length (split c s) = S (occurrences c s).
Proof.
  induction s as [| d rest IH]; [reflexivity |]. cbn.
  destruct (Ascii.eqb d c); cbn; [by rewrite IH |].
  destruct (split c rest) as [| piece pieces]; [discriminate IH | exact IH].
Qed.

Lemma split_concat (c : ascii) (s : string) :
  String.concat (String c EmptyString) (split c s) = s.
Proof.
  induction s as [| d rest IH]; [reflexivity |]. cbn [split].
  pose proof (split_length c rest) as Hlen.
  destruct (Ascii.eqb d c) eqn:Hd.
  - apply Ascii.eqb_eq in Hd as ->.
    destruct (split c rest) as [| piece pieces]; [discriminate Hlen |].
    cbn in *. by rewrite IH.
  - destruct (split c rest) as [| piece pieces]; [discriminate Hlen |].
    destruct pieces; cbn in *; by rewrite <- IH.
Qed.

Lemma split_pieces (c : ascii) (s : string) :
  Forall (fun piece => occurrences c piece = 0) (split c s).
Proof.
  induction s as [| d rest IH]; [by repeat constructor |]. cbn [split].
  destruct (Ascii.eqb d c) eqn:Hd; [by constructor |].
  destruct (split c rest) as [| piece pieces]; [repeat constructor; cbn; by rewrite Hd |].
  inversion IH as [| ? ? Hpiece Hpieces]; subst.
  constructor; [| exact Hpieces]. cbn. by rewrite Hd.
Qed.

(** X13: the check accepts a message type exactly when it has one ['/']:
    the arguments for [loadMsg] are then the part before it and the part after
    it, which hold no ['/'], can be empty, and give the type back when joined
    by ['/']; any other type is the [ValueError]. *)
Theorem X13_check_type_one_slash (msgType : string) :
  (occurrences "/" msgType = 1 ->
   exists pkg name,
     ROSSubscriber.check_type msgType = ROSSubscriber.Args [pkg; name]
     /\ msgType = pkg +:+ "/" +:+ name
     /\ occurrences "/" pkg = 0 /\ occurrences "/" name = 0)
  /\ (occurrences "/" msgType ≠ 1 ->
      ROSSubscriber.check_type msgType
      = ROSSubscriber.ValueError
          "Message type is not valid. Has to be of the form pkg/msg, i.e. std_msgs/Int8.").
Proof.
  unfold ROSSubscriber.check_type.
  pose proof (split_length "/" msgType) as Hlen.
  pose proof (split_concat "/" msgType) as Hcat.
  pose proof (split_pieces "/" msgType) as Hpieces.
  split.
  - intros Hone. rewrite Hone in Hlen. rewrite Hlen. cbn.
    destruct (split "/" msgType) as [| pkg [| name [| ? ?]]]; try discriminate Hlen.
    exists pkg, name. split; [reflexivity |].
    split; [by rewrite <- Hcat |].
    apply Forall_cons in Hpieces as [Hpkg Hrest].
    apply Forall_cons in Hrest as [Hname _]. by split.
  - intros Hnot. rewrite Hlen.
    destruct (occurrences "/" msgType) as [| [| n]]; [reflexivity | done | reflexivity].
Qed.

Lemma X13_check_type_one_slash_witness :
  (exists pkg name,
     ROSSubscriber.check_type "std_msgs/Int8" = ROSSubscriber.Args [pkg; name]
     /\ "std_msgs/Int8" = pkg +:+ "/" +:+ name
     /\ occurrences "/" pkg = 0 /\ occurrences "/" name = 0)
  /\ (exists pkg name,
        ROSSubscriber.check_type "/" = ROSSubscriber.Args [pkg; name]
        /\ "/" = pkg +:+ "/" +:+ name
        /\ occurrences "/" pkg = 0 /\ occurrences "/" name = 0)
  /\ ROSSubscriber.check_type "Int8"
     = ROSSubscriber.ValueError
         "Message type is not valid. Has to be of the form pkg/msg, i.e. std_msgs/Int8."
  /\ ROSSubscriber.check_type "geometry_msgs/msg/Pose2D"
     = ROSSubscriber.ValueError
         "Message type is not valid. Has to be of the form pkg/msg, i.e. std_msgs/Int8.".
Proof.
  split; [| split; [| split]].
  - apply (proj1 (X13_check_type_one_slash "std_msgs/Int8")). reflexivity.
  - apply (proj1 (X13_check_type_one_slash "/")). reflexivity.
  - apply (proj2 (X13_check_type_one_slash "Int8")). discriminate.
  - apply (proj2 (X13_check_type_one_slash "geometry_msgs/msg/Pose2D")). discriminate.
Defined.

(** ** _Subscriber with a callback that cannot be called *)

(** X14: a subscriber is constructed with any value as its callback; when
    that value is not callable, every message of the declared type raises a
    [TypeError] at delivery and no call is recorded, while a message of
    another type raises the type error of the check as before. *)
Theorem X14_subscriber_callback_not_callable (oid : nat) (iTag ty : string)
    (cb msg : pyvalue) (x : string) (w : World) :
  callable cb = false ->
  let self := _Subscriber.__init__ oid iTag ty cb in
  (exists reason,
     _Subscriber.callback self ty msg x w = (Raise (TypeError reason), w)
     /\ reason ≠ "Received unexpected message type.")
  /\ (forall msgType, msgType ≠ ty ->
        _Subscriber.callback self msgType msg x w
        = (Raise (TypeError "Received unexpected message type."), w)).
Proof.
  intros Hc self. split.
  - exists "object is not callable". split; [| discriminate].
    unfold _Subscriber.callback, call_user. cbn.
    by rewrite String.eqb_refl, Hc.
  - intros msgType Hne. by apply callback_mismatch.
Qed.

Lemma X14_subscriber_callback_not_callable_witness :
  (exists reason,
     _Subscriber.callback (_Subscriber.__init__ 4 "topic4" "Foo" PyNone) "Foo" reply "nil" world0
     = (Raise (TypeError reason), world0)
     /\ reason ≠ "Received unexpected message type.")
  /\ (forall msgType, msgType ≠ "Foo" ->
        _Subscriber.callback (_Subscriber.__init__ 4 "topic4" "Foo" PyNone)
          msgType reply "nil" world0
        = (Raise (TypeError "Received unexpected message type."), world0)).
Proof.
  exact (X14_subscriber_callback_not_callable 4 "topic4" "Foo" PyNone reply "nil" world0
           eq_refl).
Defined.

(** ** Several calls in a row *)

(** X15: when the random source never repeats itself, calls made one after
    the other with callable callbacks each keep their own entry: after the
    last one the callback of the i-th call is stored under the i-th id drawn,
    the requests were sent in order, each with its own id, and as many ids
    were drawn as calls were made. *)
Theorem X15_calls_keep_their_own_entries (calls : list (pyvalue * pyvalue))
    (self : Service.t) (w : World) :
  (forall i j, entropy w i = entropy w j -> i = j) ->
  Forall (fun c => callable (Service.selected self c.2) = true) calls ->
  let s' := service_run ((fun c => OpCall c.1 c.2) <$> calls) (self, w) in
  (forall i c, calls !! i = Some c ->
     _Service._responses (Service.super s'.1) !! entropy w (drawn w + i)
     = Some {| Deferred.callbacks := [(Service.selected self c.2, [])] |})
  /\ Connection.sent (conn s'.2)
     = (Connection.sent (conn w)
          ++ imap (fun i c => (_Service._iTag (Service.super self),
                               _Service._srvType (Service.super self),
                               c.1, entropy w (drawn w + i))) calls)%list
  /\ drawn s'.2 = drawn w + length calls.
Proof.
  intros Hinj Hcalls s'. subst s'.
  enough (H :
    let s' := service_run ((fun c => OpCall c.1 c.2) <$> calls) (self, w) in
    ((forall i c, calls !! i = Some c ->
        _Service._responses (Service.super s'.1) !! entropy w (drawn w + i)
        = Some {| Deferred.callbacks := [(Service.selected self c.2, [])] |})
     /\ Connection.sent (conn s'.2)
        = (Connection.sent (conn w)
             ++ imap (fun i c => (_Service._iTag (Service.super self),
                                  _Service._srvType (Service.super self),
                                  c.1, entropy w (drawn w + i))) calls)%list
     /\ drawn s'.2 = drawn w + length calls)
    /\ entropy s'.2 = entropy w
    /\ Service._cb s'.1 = Service._cb self
    /\ _Service._iTag (Service.super s'.1) = _Service._iTag (Service.super self)
    /\ _Service._srvType (Service.super s'.1) = _Service._srvType (Service.super self))
    by apply H.
  induction calls as [| c calls IH] using rev_ind.
  - cbn. repeat split; [intros i c Hc; by rewrite lookup_nil in Hc | | lia].
    by rewrite app_nil_r.
  - apply Forall_app in Hcalls as [Hcalls Hc]. rewrite Forall_singleton in Hc.
    specialize (IH Hcalls). cbn zeta in IH.
    rewrite fmap_app. unfold service_run in *. rewrite fold_left_app. cbn [fmap list_fmap fold_left].
    destruct (fold_left _ _ (self, w)) as [self' w'].
    destruct IH as ((Hentries & Hsent & Hdrawn) & Hent & Hcb & Htag & Hty). cbn in *.
    assert (Hsel : Service.selected self' c.2 = Service.selected self c.2)
      by (unfold Service.selected; by rewrite Hcb).
    rewrite call_callable by (by rewrite Hsel).
    unfold called. cbn. rewrite Hent, Hdrawn, Hsel, Htag, Hty, Hsent.
    repeat split.
    + intros i c' Hi. apply lookup_app_Some in Hi as [Hi | [Hge Hi]].
      * rewrite lookup_insert_ne; [by apply Hentries |].
        intros Heq%Hinj. apply lookup_lt_Some in Hi. lia.
      * apply list_lookup_singleton_Some in Hi as [Hi <-].
        replace (drawn w + i) with (drawn w + length calls) by lia.
        apply lookup_insert_eq.
    + rewrite imap_app, <- app_assoc. cbn. by rewrite Nat.add_0_r.
    + rewrite length_app. cbn. lia.
    + exact Hcb.
Qed.

Lemma X15_calls_keep_their_own_entries_witness :
  let s' := service_run [OpCall request PyNone; OpCall reply (PyFun "other")] (srv1, world0) in
  (forall i c, [(request, PyNone); (reply, PyFun "other")] !! i = Some c ->
     _Service._responses (Service.super s'.1) !! entropy world0 (drawn world0 + i)
     = Some {| Deferred.callbacks := [(Service.selected srv1 c.2, [])] |})
  /\ Connection.sent (conn s'.2)
     = [("srv1", "pkg/Add", request, "u1"); ("srv1", "pkg/Add", reply, "u2")]
  /\ drawn s'.2 = 2.
Proof.
  assert (Hinj : forall i j, entropy world0 i = entropy world0 j -> i = j).
  { intros i j Heq. cbn in Heq. unfold hex in Heq.
    apply (inj (String.append "u")) in Heq. apply (inj pretty) in Heq. lia. }
  pose proof (X15_calls_keep_their_own_entries
                [(request, PyNone); (reply, PyFun "other")] srv1 world0 Hinj) as H.
  cbn zeta in H. destruct H as (Hentries & Hsent & Hdrawn).
  - repeat constructor.
  - split; [exact Hentries |]. split; [vm_compute; reflexivity | exact Hdrawn].
Defined.

(** * The synchronous bridge *)



